(** * MAX47x6-RK: I2C DAC driver (MAX4706 / MAX4716 / MAX4726)

    A shallow embedding of [src/MAX47x6-RK.cpp] and [src/MAX47x6-RK.h].

    - Fixed-width C integers are [Z] with the wrap-around written out
      ([u8], [u16], [u32]).
    - The two status structs are filled by [readDevice] through a
      byte-pointer cast, so what a field holds depends on how the compiler
      lays the struct out.  That layout is the record [ABI]; [particle_abi]
      is the one of the targets the library is built for.
    - The bus ([TwoWire]) and the clock ([millis]) are an [Environment] of
      answers indexed by call number; the driver threads a [System] state
      that counts the calls and logs every bus transaction.
    - The readiness wait is a [while] loop; it is modelled with fuel and
      returns [None] when the fuel runs out. *)

From Stdlib Require Import ZArith List Bool Lia.
Import ListNotations.
Local Open Scope Z_scope.

(** ** Fixed-width integers *)

Definition u8 (x : Z) : Z := x mod 2 ^ 8.
Definition u16 (x : Z) : Z := x mod 2 ^ 16.
Definition u32 (x : Z) : Z := x mod 2 ^ 32.

(** ** Constants of the class (header) *)

Definition VREF_VDD : Z := 0.
Definition VREF_VREF_UNBUFFERED : Z := 2.
Definition VREF_VREF_BUFFERED : Z := 3.

Definition GAIN_1X : Z := 0.
Definition GAIN_2X : Z := 1.

Definition CMD_WRITE_VOLATILE_REG : Z := 0.
Definition CMD_WRITE_VOLATILE_MEMORY : Z := 2.
Definition CMD_WRITE_ALL_MEMORY : Z := 3.
Definition CMD_WRITE_VOLATILE_CONFIG : Z := 4.

Definition MAX_EEPROM_WAIT_MS : Z := 100.

(** ** Data model *)

Inductive Model : Type := MAX4706 | MAX4716 | MAX4726.

(** Resolution of each model, in bits (header comment of the class). *)
Definition width (m : Model) : Z :=
  match m with MAX4706 => 8 | MAX4716 => 10 | MAX4726 => 12 end.

(** [MAX47x6ConfigurationStatus]: six bit-fields declared with type [int],
    in this order, packed in one byte. *)
Record MAX47x6ConfigurationStatus : Type := mkConfig {
  ready : Z;
  por : Z;
  filler : Z;
  vref : Z;
  powerdown : Z;
  gain : Z
}.

(** [MAX47x6Status]: 6 bytes, packed. *)
Record MAX47x6Status : Type := mkStatus {
  volatileConfig : MAX47x6ConfigurationStatus;
  volatileValue : Z;
  nonVolatileConfig : MAX47x6ConfigurationStatus;
  nonVolatileValue : Z
}.

(** [MAX47x6Status8]: 4 bytes, packed; what the MAX4706 sends. *)
Record MAX47x6Status8 : Type := mkStatus8 {
  volatileConfig8 : MAX47x6ConfigurationStatus;
  volatileValue8 : Z;
  nonVolatileConfig8 : MAX47x6ConfigurationStatus;
  nonVolatileValue8 : Z
}.

(** ** Struct layout

    The source never decodes a status byte by shifting and masking: it
    reads the raw bytes into the struct.  Three choices of the compiler
    decide the outcome. *)
Record ABI : Type := mkABI {
  little_endian : bool;      (* a uint16_t has its low byte at the lower address *)
  bitfield_lsb_first : bool; (* the first declared bit-field is the low bit *)
  bitfield_signed : bool     (* an [int] bit-field is a signed one *)
}.

(** The library includes Particle.h: it is built with GCC for little-endian
    ARM, where bit-fields are allocated from the low bit and an [int]
    bit-field is signed. *)
Definition particle_abi : ABI :=
  {| little_endian := true; bitfield_lsb_first := true; bitfield_signed := true |}.

(** The bit-field of [wd] bits declared after [offset] bits of earlier
    fields, read from one byte. *)
Definition bitfield (abi : ABI) (byte offset wd : Z) : Z :=
  let shift := if bitfield_lsb_first abi then offset else 8 - offset - wd in
  let raw := Z.land (Z.shiftr byte shift) (Z.ones wd) in
  if bitfield_signed abi && (2 ^ (wd - 1) <=? raw) then raw - 2 ^ wd else raw.

Definition config_of_byte (abi : ABI) (byte : Z) : MAX47x6ConfigurationStatus :=
  {| ready := bitfield abi byte 0 1;
     por := bitfield abi byte 1 1;
     filler := bitfield abi byte 2 1;
     vref := bitfield abi byte 3 2;
     powerdown := bitfield abi byte 5 2;
     gain := bitfield abi byte 7 1 |}.

(** A [uint16_t] member read from the two bytes at its address. *)
Definition uint16_of_bytes (abi : ABI) (first second : Z) : Z :=
  if little_endian abi then first + 2 ^ 8 * second else 2 ^ 8 * first + second.

(** A [MAX47x6Status] seen as six raw bytes, the way [readDevice] fills it. *)
Definition status_of_bytes (abi : ABI) (buf : list Z) : MAX47x6Status :=
  {| volatileConfig := config_of_byte abi (nth 0 buf 0);
     volatileValue := uint16_of_bytes abi (nth 1 buf 0) (nth 2 buf 0);
     nonVolatileConfig := config_of_byte abi (nth 3 buf 0);
     nonVolatileValue := uint16_of_bytes abi (nth 4 buf 0) (nth 5 buf 0) |}.

(** A [MAX47x6Status8] seen as four raw bytes, the way [readDevice] fills it. *)
Definition status8_of_bytes (abi : ABI) (buf : list Z) : MAX47x6Status8 :=
  {| volatileConfig8 := config_of_byte abi (nth 0 buf 0);
     volatileValue8 := nth 1 buf 0;
     nonVolatileConfig8 := config_of_byte abi (nth 2 buf 0);
     nonVolatileValue8 := nth 3 buf 0 |}.

(** [MAX47x6::convert]: member-wise copy, the values going from [uint8_t]
    to [uint16_t]. *)
Definition convert (from : MAX47x6Status8) : MAX47x6Status :=
  {| volatileConfig := volatileConfig8 from;
     volatileValue := u16 (volatileValue8 from);
     nonVolatileConfig := nonVolatileConfig8 from;
     nonVolatileValue := u16 (nonVolatileValue8 from) |}.

(** The part of [MAX47x6::readStatus] after the bytes have arrived. *)
Definition decode_status (abi : ABI) (m : Model) (raw : list Z) : MAX47x6Status :=
  match m with
  | MAX4706 => convert (status8_of_bytes abi raw)
  | _ => status_of_bytes abi raw
  end.

(** ** Command frame

    The part of [MAX47x6::updateSettings] that fills [buf], statement by
    statement.  [vref] and [gain] are [uint8_t], [value] is [uint16_t]
    (the arguments are taken in the range of their C types); they are
    promoted to [int] in the shifts and the result is cut to a [uint8_t]
    when it is stored. *)
Definition command_frame (m : Model) (vref gain value : Z) (saveToEeprom : bool)
  : list Z :=
  let buf0 := 0 in
  let buf1 := 0 in
  let buf2 := 0 in
  let buf0 :=
    if saveToEeprom
    then u8 (Z.lor buf0 (Z.shiftl CMD_WRITE_ALL_MEMORY 5))
    else u8 (Z.lor buf0 (Z.shiftl CMD_WRITE_VOLATILE_MEMORY 5)) in
  (* buf[0]= vref << 3;  an assignment, not an or-assignment *)
  let buf0 := u8 (Z.shiftl vref 3) in
  let buf0 := if negb (gain =? 0) then u8 (Z.lor buf0 GAIN_2X) else buf0 in
  match m with
  | MAX4706 =>
      let buf1 := u8 value in
      [buf0; buf1; buf2]
  | MAX4716 =>
      let buf1 := u8 (Z.shiftr value 2) in
      let buf2 := u8 (Z.shiftl value 6) in
      [buf0; buf1; buf2]
  | MAX4726 =>
      let buf1 := u8 (Z.shiftr value 4) in
      let buf2 := u8 (Z.shiftl value 4) in
      [buf0; buf1; buf2]
  end.

(** ** The driver object, the bus and the clock *)

(** The data members of the class; the [TwoWire] reference is the
    [Environment] below. *)
Record MAX47x6 : Type := mkMAX47x6 {
  model : Model;
  addr : Z
}.

(** [MAX47x6::MAX47x6(Model model, uint8_t addr, TwoWire &wire)].  The
    member initialisers copy the arguments into the members.  Inside the
    body the name [addr] is the parameter, which hides the member. *)
Definition MAX47x6_new (model0 : Model) (addr0 : Z) : MAX47x6 :=
  let this := {| model := model0; addr := addr0 |} in
  let addr0 := if addr0 <? 8 then u8 (Z.lor addr0 96) else addr0 in
  this.

(** One transaction on the bus, as the driver issues it. *)
Inductive Transaction : Type :=
| Transmit (address : Z) (bytes : list Z)  (* beginTransmission, write..., endTransmission(true) *)
| Request (address : Z) (quantity : Z).    (* requestFrom(address, quantity, true) *)

(** What the collaborators answer, by call number. *)
Record Environment : Type := mkEnvironment {
  endTransmission : nat -> Z;   (* status of the n-th transmission, 0 on success *)
  received : nat -> list Z;     (* bytes [wire.read()] hands out after the n-th request *)
  uptime : nat -> Z             (* milliseconds since boot at the n-th call of millis() *)
}.

Record System : Type := mkSystem {
  this : MAX47x6;
  transactions : list Transaction;  (* oldest first *)
  transmits : nat;                  (* transmissions ended so far *)
  requests : nat;                   (* read requests made so far *)
  clock_reads : nat                 (* calls of millis() so far *)
}.

Definition boot (d : MAX47x6) : System :=
  {| this := d; transactions := []; transmits := 0; requests := 0; clock_reads := 0 |}.

(** The transmissions in a log, in order. *)
Fixpoint transmitted (log : list Transaction) : list (Z * list Z) :=
  match log with
  | [] => []
  | Transmit a bytes :: rest => (a, bytes) :: transmitted rest
  | Request _ _ :: rest => transmitted rest
  end.

(** The state after one read request of [bufLen] bytes: the request is
    logged with the stored address and the length cut to a byte. *)
Definition after_request (s : System) (bufLen : nat) : System :=
  {| this := this s;
     transactions :=
       transactions s ++ [Request (addr (this s)) (u8 (Z.of_nat bufLen))];
     transmits := transmits s; requests := S (requests s);
     clock_reads := clock_reads s |}.

(** The state after one call of [millis()]. *)
Definition after_tick (s : System) : System :=
  {| this := this s; transactions := transactions s;
     transmits := transmits s; requests := requests s;
     clock_reads := S (clock_reads s) |}.

(** The state after one transmission of [buf]. *)
Definition after_transmit (s : System) (buf : list Z) : System :=
  {| this := this s;
     transactions := transactions s ++ [Transmit (addr (this s)) buf];
     transmits := S (transmits s); requests := requests s;
     clock_reads := clock_reads s |}.

(** State passing, with [None] for a loop that ran out of fuel. *)
Definition M (A : Type) : Type := System -> option (A * System).

Definition ret {A : Type} (a : A) : M A := fun s => Some (a, s).

Definition bind {A B : Type} (c : M A) (k : A -> M B) : M B :=
  fun s => match c s with
           | Some (a, s') => k a s'
           | None => None
           end.

Notation "x <- c ;; k" := (bind c (fun x => k))
  (at level 61, c at next level, right associativity).

Definition get_model : M Model := fun s => Some (model (this s), s).

(** The elapsed-time test of the wait loop,
    [millis() - start < MAX_EEPROM_WAIT_MS]: [millis()] and
    [unsigned long] are 32 bits wide on the target, so the difference is
    taken modulo 2^32. *)
Definition still_waiting (start now : Z) : bool :=
  u32 (now - start) <? MAX_EEPROM_WAIT_MS.

Section Driver.

Variable abi : ABI.
Variable env : Environment.

(** [millis()] *)
Definition millis : M Z := fun s =>
  Some (u32 (uptime env (clock_reads s)), after_tick s).

(** [MAX47x6::readDevice]: one request for [bufLen] bytes, then
    [bufLen] calls of [wire.read()], each cut to a byte; [wire.read()]
    gives -1 once nothing is left. *)
Definition readDevice (bufLen : nat) : M (list Z) := fun s =>
  let rx := received env (requests s) in
  let buf := map (fun ii => u8 (nth ii rx (-1))) (seq 0 bufLen) in
  Some (buf, after_request s bufLen).

(** [MAX47x6::writeDevice]: one transmission of the whole buffer; true
    when [endTransmission] reports 0. *)
Definition writeDevice (buf : list Z) : M bool := fun s =>
  let stat := endTransmission env (transmits s) in
  Some (stat =? 0, after_transmit s buf).

(** [MAX47x6::begin]: [wire.begin()] and nothing else. *)
Definition begin : M bool := ret true.

(** [MAX47x6::updateValue] *)
Definition updateValue (value : Z) : M bool := ret true.

(** [MAX47x6::readStatus] *)
Definition readStatus : M MAX47x6Status :=
  m <- get_model ;;
  match m with
  | MAX4706 =>
      raw <- readDevice 4 ;;
      ret (convert (status8_of_bytes abi raw))
  | _ =>
      raw <- readDevice 6 ;;
      ret (status_of_bytes abi raw)
  end.

(** [MAX47x6::isReady]: the [ready] bit-field converted to [bool]. *)
Definition isReady : M bool :=
  status <- readStatus ;;
  ret (negb (ready (volatileConfig status) =? 0)).

(** The loop
    [while (millis() - start < MAX_EEPROM_WAIT_MS && !isReady()) {}];
    the second operand is evaluated only when the first holds. *)
Fixpoint wait_ready (fuel : nat) (start : Z) : M unit :=
  match fuel with
  | O => fun _ => None
  | S fuel' =>
      now <- millis ;;
      if still_waiting start now then
        rdy <- isReady ;;
        if negb rdy then wait_ready fuel' start else ret tt
      else ret tt
  end.

(** [MAX47x6::updateSettings] *)
Definition updateSettings (fuel : nat) (vref gain value : Z) (saveToEeprom : bool)
  : M bool :=
  m <- get_model ;;
  ok <- writeDevice (command_frame m vref gain value saveToEeprom) ;;
  if negb ok then ret false
  else
    start <- millis ;;
    _ <- wait_ready fuel start ;;
    ret true.

(** [MAX47x6::updateEepromIfChanged] *)
Definition updateEepromIfChanged (fuel : nat) (vref0 gain0 value : Z) : M bool :=
  status <- readStatus ;;
  if negb (vref (nonVolatileConfig status) =? vref0)
     || negb (gain (nonVolatileConfig status) =? gain0)
     || negb (nonVolatileValue status =? value)
  then updateSettings fuel vref0 gain0 value true
  else ret true.

End Driver.

(** ** Derived notions used in the statements *)

(** The status a read returns, without the state after it. *)
Definition status_read (abi : ABI) (env : Environment) (s : System)
  : option MAX47x6Status :=
  option_map fst (readStatus abi env s).

(** Byte 0 of the command frame. *)
Definition command_byte0 (m : Model) (vref gain value : Z) (saveToEeprom : bool) : Z :=
  nth 0 (command_frame m vref gain value saveToEeprom) 0.

(** An environment whose bus always acknowledges, always answers [rx] to
    a read, and whose clock advances [step] ms per call from [t0]. *)
Definition steady_env (rx : list Z) (t0 step : Z) : Environment :=
  {| endTransmission := fun _ => 0;
     received := fun _ => rx;
     uptime := fun n => t0 + step * Z.of_nat n |}.

(** Number of bytes [readStatus] asks for. *)
Definition status_length (m : Model) : nat :=
  match m with MAX4706 => 4%nat | _ => 6%nat end.

(** The buffer [readDevice] fills at the [n]-th read request. *)
Definition raw_bytes (env : Environment) (n : nat) (bufLen : nat) : list Z :=
  map (fun ii => u8 (nth ii (received env n) (-1))) (seq 0 bufLen).

(** The status the [n]-th read request decodes to, and its ready flag as
    [isReady] converts it. *)
Definition status_at (abi : ABI) (env : Environment) (m : Model) (n : nat)
  : MAX47x6Status :=
  decode_status abi m (raw_bytes env n (status_length m)).

Definition ready_at (abi : ABI) (env : Environment) (m : Model) (n : nat) : bool :=
  negb (ready (volatileConfig (status_at abi env m n)) =? 0).

(** The frame of the 8-bit example. *)
Definition example_frame_8bit : list Z := [1; 0x2A; 3; 0x15].

(** The read request [readStatus] issues for a driver object. *)
Definition status_request (d : MAX47x6) : Transaction :=
  Request (addr d) (u8 (Z.of_nat (status_length (model d)))).

(** The byte a configuration record occupies: each field's bits put back
    where [bitfield] took them from. *)
Definition byte_of_config (abi : ABI) (c : MAX47x6ConfigurationStatus) : Z :=
  let place (offset wd v : Z) :=
    Z.shiftl (v mod 2 ^ wd)
      (if bitfield_lsb_first abi then offset else 8 - offset - wd) in
  place 0 1 (ready c) + place 1 1 (por c) + place 2 1 (filler c)
  + place 3 2 (vref c) + place 5 2 (powerdown c) + place 7 1 (gain c).

(** * The command encoder *)

Module Encoder.

(** C1, the code at the request of the claim: for the 10-bit model,
    value 512, reference 0, gain 0, not saved to EEPROM, the frame is
    [0; 0b10000000; 0], with no command selector in byte 0; it is not
    the frame [0b01000000; 0b10000000; 0] of the claim, because the
    assignment of [vref << 3] overwrites the selector. *)
Theorem frame_10bit_512 :
  command_frame MAX4716 VREF_VDD GAIN_1X 512 false = [0; 128; 0]
  /\ command_frame MAX4716 VREF_VDD GAIN_1X 512 false <> [64; 128; 0].
Proof.
  split; [reflexivity | discriminate].
Qed.

(** Byte 0 never depends on the persist flag: both selectors are lost. *)
Lemma command_frame_persist_irrelevant (m : Model) (vref gain value : Z) :
  command_frame m vref gain value true = command_frame m vref gain value false.
Proof.
  destruct m; reflexivity.
Qed.

(** Byte 0 as a number, for a 2-bit reference selector. *)
Lemma command_byte0_value (m : Model) (vref gain value : Z) (save : bool) :
  0 <= vref < 4 ->
  command_byte0 m vref gain value save
  = 8 * vref + (if gain =? 0 then 0 else 1).
Proof.
  intros Hv.
  assert (E : vref = 0 \/ vref = 1 \/ vref = 2 \/ vref = 3) by lia.
  destruct (gain =? 0) eqn:G;
    destruct E as [-> | [-> | [-> | ->]]];
    destruct m; unfold command_byte0, command_frame; rewrite G; reflexivity.
Qed.

(** C2, the claim as stated fails: with reference 0 and gain 1 on the
    8-bit model, not saved to EEPROM, bit 2 of byte 0 is clear, so byte 0
    does not have the layout selector / reference / gain-in-bit-2. *)
Lemma byte0_gain_is_not_bit2 :
  ~ (let b := command_byte0 MAX4706 0 1 0 false in
     Z.shiftr b 5 = CMD_WRITE_VOLATILE_MEMORY
     /\ Z.land (Z.shiftr b 3) 3 = 0
     /\ Z.testbit b 2 = negb (1 =? 0)).
Proof.
  cbv zeta. intros (_ & _ & H). vm_compute in H. discriminate H.
Qed.

(** C2, amended: for every model, value and persist flag, byte 0 of the
    frame carries a 2-bit reference selector in bits 4-3 and the gain in
    bit 0, set exactly when the gain argument is nonzero; bits 2-1 are
    clear. *)
Theorem byte0_reference_and_gain (m : Model) (vref gain value : Z) (save : bool) :
  0 <= vref < 4 ->
  let b := command_byte0 m vref gain value save in
  Z.land (Z.shiftr b 3) 3 = vref
  /\ Z.testbit b 0 = negb (gain =? 0)
  /\ Z.testbit b 1 = false
  /\ Z.testbit b 2 = false.
Proof.
  intros Hv. cbv zeta. rewrite command_byte0_value by assumption.
  assert (E : vref = 0 \/ vref = 1 \/ vref = 2 \/ vref = 3) by lia.
  destruct (gain =? 0); destruct E as [-> | [-> | [-> | ->]]];
    repeat split; reflexivity.
Qed.

Lemma byte0_reference_and_gain_witness :
  let b := command_byte0 MAX4726 VREF_VREF_BUFFERED 5 1000 true in
  Z.land (Z.shiftr b 3) 3 = VREF_VREF_BUFFERED
  /\ Z.testbit b 0 = negb (5 =? 0)
  /\ Z.testbit b 1 = false
  /\ Z.testbit b 2 = false.
Proof.
  apply (byte0_reference_and_gain MAX4726 VREF_VREF_BUFFERED 5 1000 true).
  unfold VREF_VREF_BUFFERED. lia.
Defined.

(** The casts to [uint8_t] drop a multiple of 256. *)
Lemma u8_add_multiple (x q : Z) : u8 (256 * q + x) = u8 x.
Proof.
  unfold u8. change (2 ^ 8) with 256.
  rewrite Z.add_comm, Z.mul_comm. apply Z_mod_plus_full.
Qed.

Lemma shiftr_add_pow2 (x a n : Z) :
  0 <= n -> 0 <= a -> Z.shiftr (2 ^ (n + a) + x) n = 2 ^ a + Z.shiftr x n.
Proof.
  intros Hn Ha.
  rewrite !Z.shiftr_div_pow2 by assumption.
  rewrite Z.pow_add_r by assumption.
  rewrite (Z.mul_comm (2 ^ n)), Z.add_comm, Z.div_add by lia. lia.
Qed.

Lemma shiftl_add_pow2 (x a n : Z) :
  0 <= n -> 0 <= a -> Z.shiftl (2 ^ a + x) n = 2 ^ (a + n) + Z.shiftl x n.
Proof.
  intros Hn Ha.
  rewrite !Z.shiftl_mul_pow2 by assumption.
  rewrite Z.pow_add_r by assumption. ring.
Qed.

(** C7: for every model of width w and every k with 0 <= k < 2^w, the
    frame for the value 2^w + k is the frame for the value k, byte for
    byte. *)
Theorem frame_truncates (m : Model) (vref gain k : Z) (save : bool) :
  0 <= k < 2 ^ width m ->
  command_frame m vref gain (2 ^ width m + k) save
  = command_frame m vref gain k save.
Proof.
  intros Hk. destruct m; cbn [width]; unfold command_frame; cbv zeta.
  - do 2 f_equal. apply (u8_add_multiple k 1).
  - f_equal. f_equal; [| f_equal].
    + change (2 ^ 10) with (2 ^ (2 + 8)).
      rewrite (shiftr_add_pow2 k 8 2) by lia.
      apply (u8_add_multiple (Z.shiftr k 2) 1).
    + rewrite (shiftl_add_pow2 k 10 6) by lia.
      apply (u8_add_multiple (Z.shiftl k 6) 256).
  - f_equal. f_equal; [| f_equal].
    + change (2 ^ 12) with (2 ^ (4 + 8)).
      rewrite (shiftr_add_pow2 k 8 4) by lia.
      apply (u8_add_multiple (Z.shiftr k 4) 1).
    + rewrite (shiftl_add_pow2 k 12 4) by lia.
      apply (u8_add_multiple (Z.shiftl k 4) 256).
Qed.

Lemma frame_truncates_witness :
  command_frame MAX4716 VREF_VDD GAIN_2X (2 ^ width MAX4716 + 513) true
  = command_frame MAX4716 VREF_VDD GAIN_2X 513 true.
Proof.
  apply (frame_truncates MAX4716 VREF_VDD GAIN_2X 513 true).
  cbn [width]. lia.
Defined.

End Encoder.

(** * The status codec *)

Module Status.

(** [readStatus] always returns: one request of the model's length, and
    the bytes decoded by [decode_status]. *)
Lemma readStatus_eq (abi : ABI) (env : Environment) (s : System) :
  readStatus abi env s
  = Some (status_at abi env (model (this s)) (requests s),
          after_request s (status_length (model (this s)))).
Proof.
  unfold readStatus, bind, get_model.
  destruct (model (this s)); reflexivity.
Qed.

Lemma status_read_eq (abi : ABI) (env : Environment) (s : System) :
  status_read abi env s
  = Some (status_at abi env (model (this s)) (requests s)).
Proof.
  unfold status_read. rewrite readStatus_eq. reflexivity.
Qed.

Lemma u8_small (b : Z) : 0 <= b < 256 -> u8 b = b.
Proof.
  intros H. unfold u8. apply Z.mod_small. change (2 ^ 8) with 256. lia.
Qed.

(** C5, the claim as stated fails: on the target's layout the 12-bit
    model decodes the frame [C0 12 34 C0 56 78] to the values 0x3412 and
    0x7856, not to 0x1234 and 0x5678. *)
Lemma wide_status_is_not_big_endian :
  status_read particle_abi
    (steady_env [0xC0; 0x12; 0x34; 0xC0; 0x56; 0x78] 0 1)
    (boot (MAX47x6_new MAX4726 0x60))
  <> Some {| volatileConfig := config_of_byte particle_abi 0xC0;
             volatileValue := 0x1234;
             nonVolatileConfig := config_of_byte particle_abi 0xC0;
             nonVolatileValue := 0x5678 |}.
Proof.
  vm_compute. discriminate.
Qed.

(** C5, amended: for the 10-bit and 12-bit models a 6-byte status frame
    is decoded, in order, to the volatile configuration byte, the
    volatile 16-bit value, the non-volatile configuration byte and the
    non-volatile 16-bit value; each 16-bit value is taken in host byte
    order, so on a little-endian host (the target) the first byte of the
    pair is the low byte, and only on a big-endian host the high byte. *)
Theorem wide_status_layout (abi : ABI) (env : Environment) (s : System)
    (b0 b1 b2 b3 b4 b5 : Z) :
  model (this s) <> MAX4706 ->
  received env (requests s) = [b0; b1; b2; b3; b4; b5] ->
  Forall (fun b => 0 <= b < 256) [b0; b1; b2; b3; b4; b5] ->
  status_read abi env s
  = Some {| volatileConfig := config_of_byte abi b0;
            volatileValue :=
              if little_endian abi then b1 + 256 * b2 else 256 * b1 + b2;
            nonVolatileConfig := config_of_byte abi b3;
            nonVolatileValue :=
              if little_endian abi then b4 + 256 * b5 else 256 * b4 + b5 |}.
Proof.
  intros Hm Hrx Hb.
  rewrite status_read_eq.
  assert (E : status_at abi env (model (this s)) (requests s)
              = status_of_bytes abi [u8 b0; u8 b1; u8 b2; u8 b3; u8 b4; u8 b5]).
  { unfold status_at, raw_bytes. rewrite Hrx.
    destruct (model (this s)); [contradiction | reflexivity | reflexivity]. }
  rewrite E.
  repeat match goal with
         | H : Forall _ (_ :: _) |- _ => inversion H; subst; clear H
         end.
  rewrite !u8_small by assumption.
  reflexivity.
Qed.

Lemma wide_status_layout_witness :
  status_read particle_abi
    (steady_env [0xC0; 0x12; 0x34; 0xC0; 0x56; 0x78] 0 1)
    (boot (MAX47x6_new MAX4716 0x60))
  = Some {| volatileConfig := config_of_byte particle_abi 0xC0;
            volatileValue := 0x12 + 256 * 0x34;
            nonVolatileConfig := config_of_byte particle_abi 0xC0;
            nonVolatileValue := 0x56 + 256 * 0x78 |}.
Proof.
  apply (wide_status_layout particle_abi
           (steady_env [0xC0; 0x12; 0x34; 0xC0; 0x56; 0x78] 0 1)
           (boot (MAX47x6_new MAX4716 0x60)) 0xC0 0x12 0x34 0xC0 0x56 0x78).
  - simpl. discriminate.
  - reflexivity.
  - repeat constructor; lia.
Defined.

(** A one-bit field is 0 or 1 when bit-fields are unsigned and 0 or -1
    when they are signed; in the second case a stored gain that is on
    does not compare equal to [GAIN_2X]. *)
Lemma one_bit_field (abi : ABI) (byte offset : Z) :
  bitfield abi byte offset 1 = 0
  \/ bitfield abi byte offset 1 = (if bitfield_signed abi then -1 else 1).
Proof.
  unfold bitfield.
  set (shift := if bitfield_lsb_first abi then offset else 8 - offset - 1).
  rewrite Z.land_ones by lia.
  change (2 ^ 1) with 2. change (2 ^ (1 - 1)) with 1.
  assert (H : Z.shiftr byte shift mod 2 = 0 \/ Z.shiftr byte shift mod 2 = 1).
  { pose proof (Z.mod_pos_bound (Z.shiftr byte shift) 2). lia. }
  destruct H as [-> | ->]; destruct (bitfield_signed abi); cbn; auto.
Qed.

(** Whatever the layout, the byte 0b00000011 has a zero reference
    selector: bits 4-3 are clear. *)
Lemma vref_of_3 (abi : ABI) : vref (config_of_byte abi 3) = 0.
Proof.
  destruct abi as [le lsb sg]; destruct lsb, sg; reflexivity.
Qed.

(** C6, the claim as stated fails: decoding [01 2A 03 15] for the 8-bit
    model does not give ready=1, value 0x2A, ready=1, vref=1, value
    0x15; the reference selector of the non-volatile byte is 0. *)
Lemma vref_of_example_is_not_1 :
  ~ (exists st : MAX47x6Status,
       status_read particle_abi (steady_env example_frame_8bit 0 1)
         (boot (MAX47x6_new MAX4706 0x60)) = Some st
       /\ ready (volatileConfig st) = 1
       /\ volatileValue st = 0x2A
       /\ ready (nonVolatileConfig st) = 1
       /\ vref (nonVolatileConfig st) = 1
       /\ nonVolatileValue st = 0x15).
Proof.
  intros (st & Hst & _ & _ & _ & Hv & _).
  vm_compute in Hst. injection Hst as <-.
  vm_compute in Hv. discriminate Hv.
Qed.

(** C6, amended: for the 8-bit model, on a layout whose first declared
    bit-field is the low bit, the frame [01 2A 03 15] decodes to a
    status with the volatile ready bit set, volatile value 0x2A, the
    non-volatile ready and power-on-reset bits set, non-volatile
    reference selector 0, and non-volatile value 0x15; the one-byte
    values are zero-extended and not scaled. *)
Theorem narrow_status_example (abi : ABI) (env : Environment) (s : System) :
  model (this s) = MAX4706 ->
  bitfield_lsb_first abi = true ->
  received env (requests s) = example_frame_8bit ->
  exists st : MAX47x6Status,
    status_read abi env s = Some st
    /\ ready (volatileConfig st) <> 0
    /\ volatileValue st = 0x2A
    /\ ready (nonVolatileConfig st) <> 0
    /\ por (nonVolatileConfig st) <> 0
    /\ vref (nonVolatileConfig st) = 0
    /\ nonVolatileValue st = 0x15.
Proof.
  intros Hm Hlsb Hrx.
  eexists. split; [apply status_read_eq |].
  rewrite Hm. unfold status_at, raw_bytes. rewrite Hrx.
  destruct abi as [le lsb sg]. simpl in Hlsb. subst lsb.
  destruct sg; vm_compute; repeat split; discriminate.
Qed.

Lemma narrow_status_example_witness :
  exists st : MAX47x6Status,
    status_read particle_abi (steady_env example_frame_8bit 0 1)
      (boot (MAX47x6_new MAX4706 0x60)) = Some st
    /\ ready (volatileConfig st) <> 0
    /\ volatileValue st = 0x2A
    /\ ready (nonVolatileConfig st) <> 0
    /\ por (nonVolatileConfig st) <> 0
    /\ vref (nonVolatileConfig st) = 0
    /\ nonVolatileValue st = 0x15.
Proof.
  apply (narrow_status_example particle_abi (steady_env example_frame_8bit 0 1)
           (boot (MAX47x6_new MAX4706 0x60))); reflexivity.
Defined.

End Status.

(** * The write sequencer *)

Module Sequencer.

Lemma transmitted_app (l1 l2 : list Transaction) :
  transmitted (l1 ++ l2) = transmitted l1 ++ transmitted l2.
Proof.
  induction l1 as [| t l1 IH]; [reflexivity |].
  destruct t; simpl; rewrite IH; reflexivity.
Qed.

Lemma isReady_eq (abi : ABI) (env : Environment) (s : System) :
  isReady abi env s
  = Some (ready_at abi env (model (this s)) (requests s),
          after_request s (status_length (model (this s)))).
Proof.
  unfold isReady, bind. rewrite Status.readStatus_eq. reflexivity.
Qed.

(** One turn of the wait loop. *)
Lemma wait_ready_S (abi : ABI) (env : Environment) (fuel : nat) (start : Z)
    (s : System) :
  wait_ready abi env (S fuel) start s
  = if still_waiting start (u32 (uptime env (clock_reads s))) then
      if ready_at abi env (model (this s)) (requests s)
      then Some (tt, after_request (after_tick s) (status_length (model (this s))))
      else wait_ready abi env fuel start
             (after_request (after_tick s) (status_length (model (this s))))
    else Some (tt, after_tick s).
Proof.
  cbn [wait_ready]. unfold bind at 1. unfold millis.
  destruct (still_waiting start (u32 (uptime env (clock_reads s)))); [| reflexivity].
  unfold bind. rewrite isReady_eq. cbn [this after_tick requests].
  destruct (ready_at abi env (model (this s)) (requests s)); reflexivity.
Qed.

(** The wait only reads: it leaves the driver object and the
    transmissions as they were. *)
Lemma wait_ready_frame (abi : ABI) (env : Environment) (fuel : nat) (start : Z) :
  forall s s', wait_ready abi env fuel start s = Some (tt, s') ->
    this s' = this s
    /\ transmitted (transactions s') = transmitted (transactions s)
    /\ transmits s' = transmits s.
Proof.
  induction fuel as [| fuel IH]; intros s s' H; [discriminate H |].
  rewrite wait_ready_S in H.
  destruct (still_waiting start (u32 (uptime env (clock_reads s)))).
  - destruct (ready_at abi env (model (this s)) (requests s)).
    + injection H as <-. cbn. rewrite transmitted_app, app_nil_r. auto.
    + apply IH in H. cbn in H. rewrite transmitted_app, app_nil_r in H. exact H.
  - injection H as <-. cbn. auto.
Qed.

(** The wait returns by the first clock reading that fails the elapsed
    time test, having asked for the status at most once per earlier
    reading. *)
Lemma wait_ready_exits (abi : ABI) (env : Environment) (start : Z) :
  forall (k fuel : nat) (s : System),
    (k < fuel)%nat ->
    still_waiting start (u32 (uptime env (clock_reads s + k))) = false ->
    exists s', wait_ready abi env fuel start s = Some (tt, s')
               /\ (requests s' <= requests s + k)%nat
               /\ (clock_reads s' <= clock_reads s + k + 1)%nat.
Proof.
  induction k as [| k IH]; intros fuel s Hk Hdead;
    (destruct fuel as [| fuel]; [lia |]); rewrite wait_ready_S.
  - rewrite Nat.add_0_r in Hdead. rewrite Hdead.
    eexists; split; [reflexivity |]. cbn. lia.
  - destruct (still_waiting start (u32 (uptime env (clock_reads s)))).
    + destruct (ready_at abi env (model (this s)) (requests s)).
      * eexists; split; [reflexivity |]. cbn. lia.
      * destruct (IH fuel
                    (after_request (after_tick s) (status_length (model (this s)))))
          as (s' & E & Hr & Hc).
        { lia. }
        { cbn. rewrite <- Hdead. do 3 f_equal. lia. }
        exists s'. split; [exact E |]. cbn in Hr, Hc. lia.
    + eexists; split; [reflexivity |]. cbn. lia.
Qed.

(** When the ready bit never shows, the wait polls at every reading
    inside the window and gives up at the first one outside. *)
Lemma wait_ready_times_out (abi : ABI) (env : Environment) (start : Z) :
  forall (k fuel : nat) (s : System),
    (k < fuel)%nat ->
    (forall n, ready_at abi env (model (this s)) n = false) ->
    (forall j, (j < k)%nat ->
       still_waiting start (u32 (uptime env (clock_reads s + j))) = true) ->
    still_waiting start (u32 (uptime env (clock_reads s + k))) = false ->
    exists s', wait_ready abi env fuel start s = Some (tt, s')
               /\ requests s' = (requests s + k)%nat.
Proof.
  induction k as [| k IH]; intros fuel s Hk Hnever Hin Hdead;
    (destruct fuel as [| fuel]; [lia |]); rewrite wait_ready_S.
  - rewrite Nat.add_0_r in Hdead. rewrite Hdead.
    eexists; split; [reflexivity |]. cbn. lia.
  - specialize (Hin 0%nat ltac:(lia)) as H0. rewrite Nat.add_0_r in H0.
    rewrite H0, Hnever.
    destruct (IH fuel
                (after_request (after_tick s) (status_length (model (this s)))))
      as (s' & E & Hr).
    + lia.
    + exact Hnever.
    + intros j Hj. cbn. rewrite <- (Hin (S j)) by lia. do 3 f_equal. lia.
    + cbn. rewrite <- Hdead. do 3 f_equal. lia.
    + exists s'. split; [exact E |]. cbn in Hr. lia.
Qed.

Lemma updateSettings_eq (abi : ABI) (env : Environment) (fuel : nat)
    (vref gain value : Z) (save : bool) (s : System) :
  updateSettings abi env fuel vref gain value save s
  = if endTransmission env (transmits s) =? 0 then
      match wait_ready abi env fuel (u32 (uptime env (clock_reads s)))
              (after_tick
                 (after_transmit s
                    (command_frame (model (this s)) vref gain value save))) with
      | Some (_, s') => Some (true, s')
      | None => None
      end
    else
      Some (false,
            after_transmit s (command_frame (model (this s)) vref gain value save)).
Proof.
  unfold updateSettings, bind, get_model, writeDevice.
  destruct (endTransmission env (transmits s) =? 0); cbn [negb]; [| reflexivity].
  unfold millis. cbn [clock_reads after_transmit].
  destruct (wait_ready abi env fuel (u32 (uptime env (clock_reads s))) _)
    as [[[] s'] |]; reflexivity.
Qed.

(** Whenever [updateSettings] returns, it has made exactly one more
    transmission, of the command frame to the stored address. *)
Lemma updateSettings_transmits_once (abi : ABI) (env : Environment) (fuel : nat)
    (vref gain value : Z) (save : bool) (s : System) (r : bool) (s' : System) :
  updateSettings abi env fuel vref gain value save s = Some (r, s') ->
  transmitted (transactions s')
  = transmitted (transactions s)
    ++ [(addr (this s), command_frame (model (this s)) vref gain value save)].
Proof.
  rewrite updateSettings_eq.
  destruct (endTransmission env (transmits s) =? 0).
  - destruct (wait_ready abi env fuel _ _) as [[[] s1] |] eqn:W; [| discriminate].
    intros H. injection H as _ <-.
    apply wait_ready_frame in W. destruct W as (_ & W & _).
    rewrite W. cbn. apply transmitted_app.
  - intros H. injection H as _ <-. cbn. apply transmitted_app.
Qed.

Lemma updateEepromIfChanged_eq (abi : ABI) (env : Environment) (fuel : nat)
    (vref0 gain0 value : Z) (s : System) :
  updateEepromIfChanged abi env fuel vref0 gain0 value s
  = let status := status_at abi env (model (this s)) (requests s) in
    let s1 := after_request s (status_length (model (this s))) in
    if negb (vref (nonVolatileConfig status) =? vref0)
       || negb (gain (nonVolatileConfig status) =? gain0)
       || negb (nonVolatileValue status =? value)
    then updateSettings abi env fuel vref0 gain0 value true s1
    else Some (true, s1).
Proof.
  unfold updateEepromIfChanged, bind. rewrite Status.readStatus_eq. cbv zeta.
  destruct (negb (vref (nonVolatileConfig
                          (status_at abi env (model (this s)) (requests s)))
                  =? vref0)
            || negb (gain (nonVolatileConfig
                             (status_at abi env (model (this s)) (requests s)))
                     =? gain0)
            || negb (nonVolatileValue
                       (status_at abi env (model (this s)) (requests s))
                     =? value));
    reflexivity.
Qed.

Lemma u32_difference (t0 t : Z) :
  t0 <= t < t0 + 2 ^ 32 -> u32 (u32 t - u32 t0) = t - t0.
Proof.
  intros H. unfold u32. rewrite Zminus_mod_idemp_l, Zminus_mod_idemp_r.
  apply Z.mod_small. lia.
Qed.

(** The elapsed-time test sees the true elapsed time, wherever the two
    readings fall with respect to a wrap of the 32-bit counter. *)
Lemma still_waiting_elapsed (t0 t : Z) :
  t0 <= t < t0 + 2 ^ 32 ->
  still_waiting (u32 t0) (u32 t) = (t - t0 <? MAX_EEPROM_WAIT_MS).
Proof.
  intros H. unfold still_waiting. rewrite u32_difference by assumption.
  reflexivity.
Qed.

(** C4: [updateSettings] returns false exactly when the transmission of
    the command frame fails.  Whenever it returns, the result is false if
    and only if [endTransmission] reported a nonzero status; when the
    transmission fails it does return, with false; and when the
    transmission succeeds and the clock leaves the 100 ms window at its
    k-th reading, it returns true, also when the ready bit never showed
    and the status was polled at each of the k readings inside the
    window. *)
Theorem updateSettings_result (abi : ABI) (env : Environment) (fuel : nat)
    (vref gain value : Z) (save : bool) (s : System) :
  (forall r s',
      updateSettings abi env fuel vref gain value save s = Some (r, s') ->
      (r = false <-> endTransmission env (transmits s) <> 0))
  /\ (endTransmission env (transmits s) <> 0 ->
      exists s', updateSettings abi env fuel vref gain value save s
                 = Some (false, s'))
  /\ (forall k : nat,
        endTransmission env (transmits s) = 0 ->
        (k < fuel)%nat ->
        still_waiting (u32 (uptime env (clock_reads s)))
          (u32 (uptime env (S (clock_reads s) + k))) = false ->
        exists s', updateSettings abi env fuel vref gain value save s
                   = Some (true, s')
                   /\ ((forall n, ready_at abi env (model (this s)) n = false) ->
                       (forall j, (j < k)%nat ->
                          still_waiting (u32 (uptime env (clock_reads s)))
                            (u32 (uptime env (S (clock_reads s) + j))) = true) ->
                       requests s' = (requests s + k)%nat)).
Proof.
  rewrite updateSettings_eq.
  destruct (Z.eqb_spec (endTransmission env (transmits s)) 0) as [E | E].
  - split; [| split].
    + intros r s' H.
      destruct (wait_ready abi env fuel _ _) as [[[] s1] |]; [| discriminate].
      injection H as <- _. split; [discriminate | contradiction].
    + contradiction.
    + intros k _ Hk Hdead.
      set (s1 := after_tick
                   (after_transmit s
                      (command_frame (model (this s)) vref gain value save))).
      destruct (wait_ready_exits abi env (u32 (uptime env (clock_reads s)))
                  k fuel s1 Hk Hdead) as (s' & W & _).
      rewrite W. exists s'. split; [reflexivity |].
      intros Hnever Hin.
      destruct (wait_ready_times_out abi env (u32 (uptime env (clock_reads s)))
                  k fuel s1 Hk Hnever Hin Hdead) as (s2 & W2 & Hr).
      rewrite W in W2. injection W2 as ->. exact Hr.
  - split; [| split].
    + intros r s' H. injection H as <- _. split; [intros _; exact E | reflexivity].
    + intros _. eexists. reflexivity.
    + intros k E0. contradiction.
Qed.

Lemma updateSettings_result_witness :
  (exists s',
      updateSettings particle_abi
        {| endTransmission := fun _ => 2; received := fun _ => [];
           uptime := fun n => Z.of_nat n |}
        0 VREF_VDD GAIN_1X 512 true (boot (MAX47x6_new MAX4716 0x60))
      = Some (false, s'))
  /\ (exists s',
         updateSettings particle_abi (steady_env [0; 0; 0; 0; 0; 0] 0 50)
           5 VREF_VDD GAIN_1X 512 true (boot (MAX47x6_new MAX4716 0x60))
         = Some (true, s')
         /\ requests s' = 1%nat).
Proof.
  split.
  - apply (updateSettings_result particle_abi
             {| endTransmission := fun _ => 2; received := fun _ => [];
                uptime := fun n => Z.of_nat n |}
             0 VREF_VDD GAIN_1X 512 true (boot (MAX47x6_new MAX4716 0x60))).
    simpl. discriminate.
  - destruct (proj2 (proj2 (updateSettings_result particle_abi
                              (steady_env [0; 0; 0; 0; 0; 0] 0 50)
                              5 VREF_VDD GAIN_1X 512 true
                              (boot (MAX47x6_new MAX4716 0x60))))
                1%nat) as (s' & E & Hpolls).
    + reflexivity.
    + lia.
    + reflexivity.
    + exists s'. split; [exact E |].
      apply Hpolls.
      * intros n. reflexivity.
      * intros j Hj. destruct j as [| j]; [reflexivity | lia].
Defined.

(** C8: the elapsed-time test of the wait is an unsigned 32-bit
    difference of clock readings.  For a wait started at time [t0] it
    agrees with the true elapsed time at every reading less than 2^32 ms
    later, whether or not the counter wrapped in between; and once a
    reading shows 100 ms or more of elapsed time, a persisting
    [updateSettings] whose transmission succeeded returns true without
    polling the status at or after that reading. *)
Theorem wait_bounded_across_wraparound (abi : ABI) (env : Environment)
    (fuel : nat) (vref gain value : Z) (s : System) (k : nat) :
  let t0 := uptime env (clock_reads s) in
  (forall t, t0 <= t < t0 + 2 ^ 32 ->
     still_waiting (u32 t0) (u32 t) = (t - t0 <? MAX_EEPROM_WAIT_MS))
  /\ (endTransmission env (transmits s) = 0 ->
      (k < fuel)%nat ->
      MAX_EEPROM_WAIT_MS <= uptime env (S (clock_reads s) + k) - t0 < 2 ^ 32 ->
      exists s', updateSettings abi env fuel vref gain value true s
                 = Some (true, s')
                 /\ (requests s' <= requests s + k)%nat
                 /\ (clock_reads s' <= clock_reads s + k + 2)%nat).
Proof.
  cbv zeta. split.
  - intros t Ht. apply still_waiting_elapsed. exact Ht.
  - intros E Hk Hdead. rewrite updateSettings_eq, E. cbn [Z.eqb].
    assert (Hwin : 100 <= uptime env (S (clock_reads s) + k)
                          - uptime env (clock_reads s) < 2 ^ 32) by exact Hdead.
    destruct (wait_ready_exits abi env (u32 (uptime env (clock_reads s)))
                k fuel
                (after_tick
                   (after_transmit s
                      (command_frame (model (this s)) vref gain value true))))
      as (s' & W & Hr & Hc).
    + exact Hk.
    + cbn [clock_reads after_tick after_transmit].
      rewrite still_waiting_elapsed by lia.
      apply Z.ltb_ge. unfold MAX_EEPROM_WAIT_MS. lia.
    + rewrite W. exists s'. split; [reflexivity |].
      cbn in Hr, Hc. lia.
Qed.

Lemma wait_bounded_across_wraparound_witness :
  still_waiting (u32 (2 ^ 32 - 30)) (u32 (2 ^ 32 + 69)) = (99 <? MAX_EEPROM_WAIT_MS)
  /\ (exists s',
         updateSettings particle_abi
           (steady_env [0; 0; 0; 0; 0; 0] (2 ^ 32 - 30) 40)
           5 VREF_VDD GAIN_1X 512 true (boot (MAX47x6_new MAX4716 0x60))
         = Some (true, s')
         /\ (requests s' <= 0 + 2)%nat
         /\ (clock_reads s' <= 0 + 2 + 2)%nat).
Proof.
  destruct (wait_bounded_across_wraparound particle_abi
              (steady_env [0; 0; 0; 0; 0; 0] (2 ^ 32 - 30) 40)
              5 VREF_VDD GAIN_1X 512 (boot (MAX47x6_new MAX4716 0x60)) 2)
    as [Htest Hexit].
  split.
  - apply (Htest (2 ^ 32 + 69)). simpl. lia.
  - apply Hexit.
    + reflexivity.
    + lia.
    + simpl. unfold MAX_EEPROM_WAIT_MS. lia.
Defined.

(** The comparison of [updateEepromIfChanged], in terms of the fields as
    the code decodes them (not of what the device holds): it reads the
    status once; when the decoded non-volatile reference selector, gain
    and value all equal the arguments it returns true and has
    transmitted nothing; when one of them differs it is [updateSettings]
    with the persist flag set: whenever it returns it has transmitted
    exactly one frame, and it does return once the clock leaves the
    100 ms window. *)
Theorem updateEepromIfChanged_writes (abi : ABI) (env : Environment)
    (fuel : nat) (vref0 gain0 value : Z) (s : System) :
  let stored := status_at abi env (model (this s)) (requests s) in
  let same :=
    vref (nonVolatileConfig stored) = vref0
    /\ gain (nonVolatileConfig stored) = gain0
    /\ nonVolatileValue stored = value in
  (same ->
   exists s', updateEepromIfChanged abi env fuel vref0 gain0 value s
              = Some (true, s')
              /\ transmitted (transactions s') = transmitted (transactions s))
  /\ (~ same ->
      (forall r s',
          updateEepromIfChanged abi env fuel vref0 gain0 value s = Some (r, s') ->
          transmitted (transactions s')
          = transmitted (transactions s)
            ++ [(addr (this s),
                 command_frame (model (this s)) vref0 gain0 value true)])
      /\ (forall k : nat,
            (k < fuel)%nat ->
            still_waiting (u32 (uptime env (clock_reads s)))
              (u32 (uptime env (S (clock_reads s) + k))) = false ->
            exists r s',
              updateEepromIfChanged abi env fuel vref0 gain0 value s
              = Some (r, s'))).
Proof.
  cbv zeta. rewrite updateEepromIfChanged_eq. cbv zeta.
  set (stored := status_at abi env (model (this s)) (requests s)).
  set (s1 := after_request s (status_length (model (this s)))).
  assert (Hlog : transmitted (transactions s1) = transmitted (transactions s)).
  { subst s1. cbn. rewrite transmitted_app. apply app_nil_r. }
  split.
  - intros (Hv & Hg & Hn). rewrite Hv, Hg, Hn, !Z.eqb_refl. cbn [negb orb].
    exists s1. split; [reflexivity | exact Hlog].
  - intros Hdiff.
    assert (C : negb (vref (nonVolatileConfig stored) =? vref0)
                || negb (gain (nonVolatileConfig stored) =? gain0)
                || negb (nonVolatileValue stored =? value) = true).
    { destruct (Z.eqb_spec (vref (nonVolatileConfig stored)) vref0);
        [| reflexivity].
      destruct (Z.eqb_spec (gain (nonVolatileConfig stored)) gain0);
        [| reflexivity].
      destruct (Z.eqb_spec (nonVolatileValue stored) value);
        [| reflexivity].
      exfalso. apply Hdiff. auto. }
    rewrite C. split.
    + intros r s' H. apply updateSettings_transmits_once in H.
      rewrite H, Hlog. reflexivity.
    + intros k Hk Hdead. rewrite updateSettings_eq.
      destruct (endTransmission env (transmits s1) =? 0);
        [| eexists; eexists; reflexivity].
      destruct (wait_ready_exits abi env (u32 (uptime env (clock_reads s1)))
                  k fuel
                  (after_tick
                     (after_transmit s1
                        (command_frame (model (this s1)) vref0 gain0 value true))))
        as (s' & W & _); [exact Hk | exact Hdead |].
      rewrite W. eexists; eexists; reflexivity.
Qed.

Lemma updateEepromIfChanged_writes_witness :
  (exists s',
      updateEepromIfChanged particle_abi (steady_env [1; 0x2A; 3; 0x15] 0 50)
        5 VREF_VDD GAIN_1X 0x15 (boot (MAX47x6_new MAX4706 0x60))
      = Some (true, s')
      /\ transmitted (transactions s') = [])
  /\ (forall r s',
         updateEepromIfChanged particle_abi (steady_env [1; 0x2A; 3; 0x15] 0 50)
           5 VREF_VDD GAIN_1X 0x16 (boot (MAX47x6_new MAX4706 0x60))
         = Some (r, s') ->
         transmitted (transactions s')
         = [(0x60, command_frame MAX4706 VREF_VDD GAIN_1X 0x16 true)])
  /\ (exists r s',
         updateEepromIfChanged particle_abi (steady_env [1; 0x2A; 3; 0x15] 0 50)
           5 VREF_VDD GAIN_1X 0x16 (boot (MAX47x6_new MAX4706 0x60))
         = Some (r, s')).
Proof.
  split; [| split].
  - apply (updateEepromIfChanged_writes particle_abi
             (steady_env [1; 0x2A; 3; 0x15] 0 50)
             5 VREF_VDD GAIN_1X 0x15 (boot (MAX47x6_new MAX4706 0x60))).
    repeat split.
  - apply (updateEepromIfChanged_writes particle_abi
             (steady_env [1; 0x2A; 3; 0x15] 0 50)
             5 VREF_VDD GAIN_1X 0x16 (boot (MAX47x6_new MAX4706 0x60))).
    intros (_ & _ & H). vm_compute in H. discriminate H.
  - apply (proj2 (updateEepromIfChanged_writes particle_abi
                    (steady_env [1; 0x2A; 3; 0x15] 0 50)
                    5 VREF_VDD GAIN_1X 0x16 (boot (MAX47x6_new MAX4706 0x60))))
      with (k := 2%nat).
    + intros (_ & _ & H). vm_compute in H. discriminate H.
    + lia.
    + reflexivity.
Defined.

(** C3, the code on a device that already holds the request.  On the
    target's layout an 8-bit device answers the status [83 07 83 07]:
    its non-volatile configuration byte has the gain bit set and the
    reference selector 0, and its non-volatile value is 7.  Asked for
    reference 0, gain 2x, value 7, [updateEepromIfChanged] does not
    return without writing: the stored gain is a signed one-bit field,
    reads -1 and does not compare equal to [GAIN_2X], so one frame is
    transmitted although nothing changed; and that frame, [1; 7; 0],
    carries no persist selector. *)
Theorem unchanged_settings_are_rewritten :
  let env := steady_env [0x83; 7; 0x83; 7] 0 50 in
  let s := boot (MAX47x6_new MAX4706 0x60) in
  (exists stored : MAX47x6Status,
      status_read particle_abi env s = Some stored
      /\ vref (nonVolatileConfig stored) = VREF_VDD
      /\ negb (gain (nonVolatileConfig stored) =? 0) = negb (GAIN_2X =? 0)
      /\ Z.testbit 0x83 7 = true
      /\ nonVolatileValue stored = 7
      /\ gain (nonVolatileConfig stored) = -1)
  /\ option_map (fun r => (fst r, transmitted (transactions (snd r))))
       (updateEepromIfChanged particle_abi env 5 VREF_VDD GAIN_2X 7 s)
     = Some (true, [(0x60, [1; 7; 0])])
  /\ command_frame MAX4706 VREF_VDD GAIN_2X 7 false = [1; 7; 0].
Proof.
  cbv zeta. split; [| split].
  - eexists. split; [vm_compute; reflexivity |].
    repeat split.
  - vm_compute. reflexivity.
  - reflexivity.
Qed.

End Sequencer.

(** * The object: construction and [updateValue] *)

Module Object.

(** C9, the code at a short address: the constructor stores its address
    argument as it is, for every argument; the or with 0x60 goes to the
    parameter and is lost.  Constructed with address 3, the driver
    transmits to and requests from address 3, not 0x63. *)
Theorem short_address_is_not_mapped :
  (forall (m : Model) (a : Z), addr (MAX47x6_new m a) = a)
  /\ option_map (fun r => transactions (snd r))
       (updateEepromIfChanged particle_abi (steady_env [1; 0x2A; 3; 0x15] 0 50)
          5 VREF_VDD GAIN_1X 0x16 (boot (MAX47x6_new MAX4706 3)))
     = Some [Request 3 4; Transmit 3 [0; 0x16; 0]; Request 3 4]
  /\ Z.lor 0x60 3 = 0x63.
Proof.
  split; [| split].
  - intros m a. reflexivity.
  - vm_compute. reflexivity.
  - reflexivity.
Qed.

(** C10: for every value, [updateValue] returns true and leaves the
    whole state as it was: the driver object, the log of bus
    transactions and the counters of bus and clock calls. *)
Theorem updateValue_does_nothing (value : Z) (s : System) :
  updateValue value s = Some (true, s).
Proof.
  reflexivity.
Qed.

End Object.

(** * More on the command frame *)

Module Frames.

Lemma u8_range (x : Z) : 0 <= u8 x < 256.
Proof.
  unfold u8. change (2 ^ 8) with 256. apply Z.mod_pos_bound. lia.
Qed.

(** The frame has three bytes for every model, the 8-bit one included,
    and each of them is a byte, whatever the arguments. *)
Theorem frame_is_three_bytes (m : Model) (vref gain value : Z) (save : bool) :
  length (command_frame m vref gain value save) = 3%nat
  /\ Forall (fun b => 0 <= b < 256) (command_frame m vref gain value save).
Proof.
  split; [destruct m; reflexivity |].
  assert (H0 : 0 <= (if negb (gain =? 0)
                     then u8 (Z.lor (u8 (Z.shiftl vref 3)) GAIN_2X)
                     else u8 (Z.shiftl vref 3)) < 256).
  { destruct (negb (gain =? 0)); apply u8_range. }
  destruct m; unfold command_frame; cbv zeta;
    repeat (apply Forall_cons || apply Forall_nil);
    try exact H0; try apply u8_range; lia.
Qed.

(** Bytes 1-2, read as one 16-bit word with byte 1 the high byte, hold
    an in-range value left-aligned: the value is recovered by a right
    shift of 16 - width, and the low 16 - width bits are zero. *)
Theorem value_is_left_aligned (m : Model) (vref gain value : Z) (save : bool) :
  0 <= value < 2 ^ width m ->
  256 * nth 1 (command_frame m vref gain value save) 0
  + nth 2 (command_frame m vref gain value save) 0
  = value * 2 ^ (16 - width m).
Proof.
  intros Hv.
  destruct m; cbn [width] in *; unfold command_frame; cbv zeta; cbn [nth];
    unfold u8; rewrite ?Z.shiftr_div_pow2, ?Z.shiftl_mul_pow2 by lia.
  - change (2 ^ 8) with 256 in *. change (2 ^ (16 - 8)) with 256.
    rewrite Z.mod_small by lia. lia.
  - change (2 ^ 10) with 1024 in *. change (2 ^ (16 - 10)) with 64.
    change (2 ^ 8) with 256. change (2 ^ 2) with 4. change (2 ^ 6) with 64.
    Z.to_euclidean_division_equations. lia.
  - change (2 ^ 12) with 4096 in *. change (2 ^ (16 - 12)) with 16.
    change (2 ^ 8) with 256. change (2 ^ 4) with 16.
    Z.to_euclidean_division_equations. lia.
Qed.

Lemma value_is_left_aligned_witness :
  256 * nth 1 (command_frame MAX4716 VREF_VDD GAIN_1X 0x2AB false) 0
  + nth 2 (command_frame MAX4716 VREF_VDD GAIN_1X 0x2AB false) 0
  = 0x2AB * 2 ^ (16 - width MAX4716).
Proof.
  apply (value_is_left_aligned MAX4716 VREF_VDD GAIN_1X 0x2AB false).
  cbn [width]. lia.
Defined.

(** For a 2-bit reference selector the top three bits of byte 0 are 000,
    the selector of [CMD_WRITE_VOLATILE_REG], with the persist flag set
    or not: neither "write volatile memory" nor "write all memory" is
    ever sent. *)
Theorem selector_is_never_sent (m : Model) (vref gain value : Z) (save : bool) :
  0 <= vref < 4 ->
  Z.shiftr (command_byte0 m vref gain value save) 5 = CMD_WRITE_VOLATILE_REG.
Proof.
  intros Hv.
  assert (E : vref = 0 \/ vref = 1 \/ vref = 2 \/ vref = 3) by lia.
  unfold command_byte0, command_frame; cbv zeta.
  destruct (negb (gain =? 0)); destruct E as [-> | [-> | [-> | ->]]];
    destruct m; reflexivity.
Qed.

Lemma selector_is_never_sent_witness :
  Z.shiftr (command_byte0 MAX4726 VREF_VREF_BUFFERED GAIN_2X 0xFFF true) 5
  = CMD_WRITE_VOLATILE_REG.
Proof.
  apply (selector_is_never_sent MAX4726 VREF_VREF_BUFFERED GAIN_2X 0xFFF true).
  unfold VREF_VREF_BUFFERED. lia.
Defined.

(** [updateSettings] does the same with the persist flag set as without
    it: the same frame, the same wait, the same result and final state. *)
Theorem updateSettings_ignores_persist (abi : ABI) (env : Environment)
    (fuel : nat) (vref gain value : Z) (s : System) :
  updateSettings abi env fuel vref gain value true s
  = updateSettings abi env fuel vref gain value false s.
Proof.
  rewrite !Sequencer.updateSettings_eq.
  rewrite Encoder.command_frame_persist_irrelevant. reflexivity.
Qed.

End Frames.

(** * More on reading the status *)

Module Readback.

(** A property checked on each of the 256 bytes holds of every byte. *)
Lemma byte_cases (P : Z -> bool) :
  forallb P (map Z.of_nat (seq 0 256)) = true ->
  forall b, 0 <= b < 256 -> P b = true.
Proof.
  intros H b Hb. rewrite forallb_forall in H. apply H.
  apply in_map_iff. exists (Z.to_nat b). split; [lia |].
  apply in_seq. lia.
Qed.

Lemma config_round_trip (abi : ABI) (b : Z) :
  0 <= b < 256 -> byte_of_config abi (config_of_byte abi b) = b.
Proof.
  intros Hb. apply Z.eqb_eq. revert b Hb.
  destruct abi as [le lsb sg].
  destruct lsb, sg; apply byte_cases; vm_compute; reflexivity.
Qed.

(** Decoding a status byte into its six bit-fields loses nothing, on
    every layout: putting the fields back gives the byte again, so two
    different bytes give two different records. *)
Theorem config_byte_round_trip (abi : ABI) (b : Z) :
  0 <= b < 256 ->
  byte_of_config abi (config_of_byte abi b) = b
  /\ forall b', 0 <= b' < 256 ->
       config_of_byte abi b = config_of_byte abi b' -> b = b'.
Proof.
  intros Hb. split; [apply config_round_trip; exact Hb |].
  intros b' Hb' E.
  rewrite <- (config_round_trip abi b Hb), <- (config_round_trip abi b' Hb').
  rewrite E. reflexivity.
Qed.

Lemma config_byte_round_trip_witness :
  byte_of_config particle_abi (config_of_byte particle_abi 0x99) = 0x99.
Proof.
  apply (proj1 (config_byte_round_trip particle_abi 0x99 ltac:(lia))).
Defined.

Lemma land_one_bit (x : Z) : Z.land x (Z.ones 1) = Z.b2z (Z.testbit x 0).
Proof.
  rewrite Z.land_ones by lia. change (2 ^ 1) with 2.
  symmetry. apply Z.bit0_mod.
Qed.

(** A one-bit field is nonzero exactly when its bit of the byte is set,
    signed or not. *)
Lemma one_bit_field_set (abi : ABI) (byte offset : Z) :
  0 <= offset < 8 ->
  negb (bitfield abi byte offset 1 =? 0)
  = Z.testbit byte (if bitfield_lsb_first abi then offset else 7 - offset).
Proof.
  intros Ho. unfold bitfield.
  replace (8 - offset - 1) with (7 - offset) by lia.
  set (shift := if bitfield_lsb_first abi then offset else 7 - offset).
  assert (Hs : 0 <= shift) by (subst shift; destruct (bitfield_lsb_first abi); lia).
  rewrite land_one_bit, Z.shiftr_spec by lia. cbn [Z.add].
  destruct (Z.testbit byte shift); destruct (bitfield_signed abi); reflexivity.
Qed.

(** [isReady] makes one status request and returns one bit of the first
    byte received: bit 0 where the first declared bit-field is the low
    bit (the target), bit 7 otherwise; signedness plays no part. *)
Theorem isReady_is_one_bit (abi : ABI) (env : Environment) (s : System)
    (b0 : Z) (rest : list Z) :
  received env (requests s) = b0 :: rest ->
  0 <= b0 < 256 ->
  isReady abi env s
  = Some (Z.testbit b0 (if bitfield_lsb_first abi then 0 else 7),
          after_request s (status_length (model (this s)))).
Proof.
  intros Hrx Hb.
  rewrite Sequencer.isReady_eq. do 2 f_equal.
  assert (E : ready (volatileConfig (status_at abi env (model (this s)) (requests s)))
              = bitfield abi b0 0 1).
  { unfold status_at, raw_bytes. rewrite Hrx.
    destruct (model (this s)); cbn [status_length seq map nth decode_status
      convert status8_of_bytes status_of_bytes volatileConfig volatileConfig8
      config_of_byte ready]; rewrite Status.u8_small by assumption; reflexivity. }
  unfold ready_at. rewrite E. apply (one_bit_field_set abi b0 0). lia.
Qed.

Lemma isReady_is_one_bit_witness :
  isReady particle_abi (steady_env [0x81; 0; 0; 0x80; 0; 0] 0 1)
    (boot (MAX47x6_new MAX4726 0x60))
  = Some (Z.testbit 0x81 0,
          after_request (boot (MAX47x6_new MAX4726 0x60)) 6).
Proof.
  apply (isReady_is_one_bit particle_abi (steady_env [0x81; 0; 0; 0x80; 0; 0] 0 1)
           (boot (MAX47x6_new MAX4726 0x60)) 0x81 [0; 0; 0x80; 0; 0]).
  - reflexivity.
  - lia.
Defined.

(** The number of bytes that arrived is never checked: when the bus
    delivers none ([wire.read()] gives -1 each time), every byte of the
    status is 0xFF, so both values are all ones and [isReady] reports
    true, on every layout. *)
Theorem silent_bus_reads_ready (abi : ABI) (env : Environment) (s : System) :
  received env (requests s) = [] ->
  isReady abi env s
  = Some (true, after_request s (status_length (model (this s))))
  /\ exists st : MAX47x6Status,
       status_read abi env s = Some st
       /\ volatileValue st
          = (match model (this s) with MAX4706 => 0xFF | _ => 0xFFFF end)
       /\ nonVolatileValue st
          = (match model (this s) with MAX4706 => 0xFF | _ => 0xFFFF end).
Proof.
  intros Hrx. rewrite Sequencer.isReady_eq, Status.status_read_eq.
  unfold ready_at, status_at, raw_bytes. rewrite Hrx.
  destruct abi as [le lsb sg].
  destruct (model (this s)); destruct le, lsb, sg;
    (split; [reflexivity | eexists; repeat split]).
Qed.

Lemma silent_bus_reads_ready_witness :
  isReady particle_abi (steady_env [] 0 1) (boot (MAX47x6_new MAX4706 0x60))
  = Some (true, after_request (boot (MAX47x6_new MAX4706 0x60)) 4)
  /\ exists st : MAX47x6Status,
       status_read particle_abi (steady_env [] 0 1)
         (boot (MAX47x6_new MAX4706 0x60)) = Some st
       /\ volatileValue st = 0xFF
       /\ nonVolatileValue st = 0xFF.
Proof.
  apply (silent_bus_reads_ready particle_abi (steady_env [] 0 1)
           (boot (MAX47x6_new MAX4706 0x60))).
  reflexivity.
Defined.

Lemma uint16_of_bytes_range (abi : ABI) (x y : Z) :
  0 <= uint16_of_bytes abi (u8 x) (u8 y) < 65536.
Proof.
  pose proof (Frames.u8_range x). pose proof (Frames.u8_range y).
  unfold uint16_of_bytes. change (2 ^ 8) with 256.
  destruct (little_endian abi); lia.
Qed.

Lemma u16_u8_range (x : Z) : 0 <= u16 (u8 x) < 256.
Proof.
  pose proof (Frames.u8_range x). unfold u16.
  rewrite Z.mod_small; [assumption |]. change (2 ^ 16) with 65536. lia.
Qed.

(** Whatever the bus delivers, the two values of a status that was read
    are below 256 for the 8-bit model and below 65536 for the others. *)
Theorem status_values_bounded (abi : ABI) (env : Environment) (s : System)
    (st : MAX47x6Status) :
  status_read abi env s = Some st ->
  let limit := match model (this s) with MAX4706 => 256 | _ => 65536 end in
  0 <= volatileValue st < limit /\ 0 <= nonVolatileValue st < limit.
Proof.
  rewrite Status.status_read_eq. intros H. injection H as <-.
  unfold status_at, raw_bytes.
  destruct (model (this s)); cbn [status_length seq map decode_status convert
    status8_of_bytes status_of_bytes volatileValue nonVolatileValue
    volatileValue8 nonVolatileValue8 nth];
    split; (apply u16_u8_range || apply uint16_of_bytes_range).
Qed.

Lemma status_values_bounded_witness :
  0 <= volatileValue (convert (status8_of_bytes particle_abi [1; 0x2A; 3; 0x15]))
    < 256
  /\ 0 <= nonVolatileValue
            (convert (status8_of_bytes particle_abi [1; 0x2A; 3; 0x15])) < 256.
Proof.
  apply (status_values_bounded particle_abi (steady_env [1; 0x2A; 3; 0x15] 0 1)
           (boot (MAX47x6_new MAX4706 0x60))
           (convert (status8_of_bytes particle_abi [1; 0x2A; 3; 0x15]))).
  reflexivity.
Defined.

(** For the 8-bit model the first four bytes received are decoded, in
    order, to the volatile configuration byte, the volatile value, the
    non-volatile configuration byte and the non-volatile value, each
    value being its byte unchanged; bytes received beyond the fourth are
    ignored. *)
Theorem narrow_status_layout (abi : ABI) (env : Environment) (s : System)
    (b0 b1 b2 b3 : Z) (rest : list Z) :
  model (this s) = MAX4706 ->
  received env (requests s) = b0 :: b1 :: b2 :: b3 :: rest ->
  Forall (fun b => 0 <= b < 256) [b0; b1; b2; b3] ->
  status_read abi env s
  = Some {| volatileConfig := config_of_byte abi b0;
            volatileValue := b1;
            nonVolatileConfig := config_of_byte abi b2;
            nonVolatileValue := b3 |}.
Proof.
  intros Hm Hrx Hb.
  rewrite Status.status_read_eq, Hm.
  unfold status_at, raw_bytes. rewrite Hrx.
  cbn [status_length seq map nth decode_status convert status8_of_bytes
       volatileConfig8 volatileValue8 nonVolatileConfig8 nonVolatileValue8].
  repeat match goal with
         | H : Forall _ (_ :: _) |- _ => inversion H; subst; clear H
         end.
  rewrite !Status.u8_small by assumption.
  unfold convert, status8_of_bytes, u16. cbn [nth volatileConfig8 volatileValue8
    nonVolatileConfig8 nonVolatileValue8].
  rewrite !Z.mod_small by (change (2 ^ 16) with 65536; lia).
  reflexivity.
Qed.

Lemma narrow_status_layout_witness :
  status_read particle_abi (steady_env [0x81; 0xFE; 0x18; 0x7F; 0xAA; 0xBB] 0 1)
    (boot (MAX47x6_new MAX4706 0x60))
  = Some {| volatileConfig := config_of_byte particle_abi 0x81;
            volatileValue := 0xFE;
            nonVolatileConfig := config_of_byte particle_abi 0x18;
            nonVolatileValue := 0x7F |}.
Proof.
  apply (narrow_status_layout particle_abi
           (steady_env [0x81; 0xFE; 0x18; 0x7F; 0xAA; 0xBB] 0 1)
           (boot (MAX47x6_new MAX4706 0x60)) 0x81 0xFE 0x18 0x7F [0xAA; 0xBB]).
  - reflexivity.
  - reflexivity.
  - repeat constructor; lia.
Defined.

End Readback.

(** * More on the bus traffic *)

Module Traffic.

(** The wait adds status requests and nothing else to the log, one per
    clock reading at most, and leaves the driver object alone. *)
Lemma wait_ready_log (abi : ABI) (env : Environment) (fuel : nat) (start : Z) :
  forall s s', wait_ready abi env fuel start s = Some (tt, s') ->
    exists n : nat,
      transactions s' = transactions s ++ repeat (status_request (this s)) n
      /\ this s' = this s
      /\ transmits s' = transmits s
      /\ requests s' = (requests s + n)%nat
      /\ (clock_reads s + n <= clock_reads s' <= clock_reads s + n + 1)%nat.
Proof.
  induction fuel as [| fuel IH]; intros s s' H; [discriminate H |].
  rewrite Sequencer.wait_ready_S in H.
  destruct (still_waiting start (u32 (uptime env (clock_reads s)))).
  - destruct (ready_at abi env (model (this s)) (requests s)).
    + injection H as <-. exists 1%nat. cbn. repeat split; lia.
    + apply IH in H. destruct H as (n & Hlog & Hthis & Htx & Hrq & Hck).
      cbn in Hlog, Hthis, Htx, Hrq, Hck.
      exists (S n). rewrite Hlog, <- app_assoc. cbn.
      repeat split; try assumption; lia.
  - injection H as <-. exists 0%nat. cbn. rewrite app_nil_r.
    repeat split; lia.
Qed.

(** The wait stops at the first poll that shows the ready bit. *)
Lemma wait_ready_until_ready (abi : ABI) (env : Environment) (start : Z) :
  forall (k fuel : nat) (s : System),
    (k < fuel)%nat ->
    (forall j, (j <= k)%nat ->
       still_waiting start (u32 (uptime env (clock_reads s + j))) = true) ->
    (forall j, (j < k)%nat ->
       ready_at abi env (model (this s)) (requests s + j) = false) ->
    ready_at abi env (model (this s)) (requests s + k) = true ->
    exists s', wait_ready abi env fuel start s = Some (tt, s')
               /\ requests s' = (requests s + k + 1)%nat
               /\ clock_reads s' = (clock_reads s + k + 1)%nat.
Proof.
  induction k as [| k IH]; intros fuel s Hk Hin Hbusy Hready;
    (destruct fuel as [| fuel]; [lia |]); rewrite Sequencer.wait_ready_S;
    specialize (Hin 0%nat ltac:(lia)) as H0; rewrite Nat.add_0_r in H0;
    rewrite H0.
  - rewrite Nat.add_0_r in Hready. rewrite Hready.
    eexists; split; [reflexivity |]. cbn. lia.
  - specialize (Hbusy 0%nat ltac:(lia)) as B0. rewrite Nat.add_0_r in B0.
    rewrite B0.
    destruct (IH fuel
                (after_request (after_tick s) (status_length (model (this s)))))
      as (s' & E & Hr & Hc).
    + lia.
    + intros j Hj. cbn. rewrite <- (Hin (S j)) by lia. do 3 f_equal. lia.
    + intros j Hj. cbn. rewrite <- (Hbusy (S j)) by lia. f_equal. lia.
    + cbn. rewrite <- Hready. f_equal. lia.
    + exists s'. split; [exact E |]. cbn in Hr, Hc. lia.
Qed.

(** After a successful transmission [updateSettings] polls until the
    ready bit shows: when the clock stays inside the window and the
    first ready status is the (k+1)-th, it returns true after exactly
    k+1 status requests and k+2 clock readings. *)
Theorem updateSettings_stops_when_ready (abi : ABI) (env : Environment)
    (fuel : nat) (vref gain value : Z) (save : bool) (s : System) (k : nat) :
  endTransmission env (transmits s) = 0 ->
  (k < fuel)%nat ->
  (forall j, (j <= k)%nat ->
     still_waiting (u32 (uptime env (clock_reads s)))
       (u32 (uptime env (S (clock_reads s) + j))) = true) ->
  (forall j, (j < k)%nat ->
     ready_at abi env (model (this s)) (requests s + j) = false) ->
  ready_at abi env (model (this s)) (requests s + k) = true ->
  exists s', updateSettings abi env fuel vref gain value save s = Some (true, s')
             /\ requests s' = (requests s + k + 1)%nat
             /\ clock_reads s' = (clock_reads s + k + 2)%nat.
Proof.
  intros E Hk Hin Hbusy Hready.
  rewrite Sequencer.updateSettings_eq, E. cbn [Z.eqb].
  destruct (wait_ready_until_ready abi env (u32 (uptime env (clock_reads s)))
              k fuel
              (after_tick
                 (after_transmit s
                    (command_frame (model (this s)) vref gain value save)))
              Hk Hin Hbusy Hready) as (s' & W & Hr & Hc).
  rewrite W. exists s'. split; [reflexivity |]. cbn in Hr, Hc. lia.
Qed.

Lemma updateSettings_stops_when_ready_witness :
  exists s',
    updateSettings particle_abi (steady_env [1; 0; 0; 1; 0; 0] 0 10)
      5 VREF_VDD GAIN_1X 512 false (boot (MAX47x6_new MAX4716 0x60))
    = Some (true, s')
    /\ requests s' = (0 + 0 + 1)%nat
    /\ clock_reads s' = (0 + 0 + 2)%nat.
Proof.
  apply (updateSettings_stops_when_ready particle_abi
           (steady_env [1; 0; 0; 1; 0; 0] 0 10)
           5 VREF_VDD GAIN_1X 512 false (boot (MAX47x6_new MAX4716 0x60)) 0).
  - reflexivity.
  - lia.
  - intros j Hj. assert (j = 0%nat) as -> by lia. reflexivity.
  - intros j Hj. lia.
  - reflexivity.
Defined.

(** What one call of [updateSettings] puts on the bus: the command
    frame, to the stored address, and after it only status requests to
    the same address; none at all, and no clock reading, when the
    transmission failed; otherwise fewer requests than clock readings.
    The driver object is left as it was. *)
Theorem updateSettings_traffic (abi : ABI) (env : Environment) (fuel : nat)
    (vref gain value : Z) (save : bool) (s : System) (r : bool) (s' : System) :
  updateSettings abi env fuel vref gain value save s = Some (r, s') ->
  this s' = this s
  /\ exists n : nat,
       transactions s'
       = transactions s
         ++ Transmit (addr (this s))
              (command_frame (model (this s)) vref gain value save)
            :: repeat (status_request (this s)) n
       /\ (r = false -> n = 0%nat /\ clock_reads s' = clock_reads s)
       /\ (r = true -> (clock_reads s + n < clock_reads s')%nat).
Proof.
  rewrite Sequencer.updateSettings_eq.
  destruct (endTransmission env (transmits s) =? 0).
  - destruct (wait_ready abi env fuel _ _) as [[[] s1] |] eqn:W; [| discriminate].
    intros H. injection H as <- <-.
    apply wait_ready_log in W.
    destruct W as (n & Hlog & Hthis & _ & _ & Hck).
    cbn in Hlog, Hthis, Hck.
    split; [exact Hthis |]. exists n.
    rewrite Hlog, <- app_assoc. cbn.
    repeat split; [discriminate | discriminate | intros _; lia].
  - intros H. injection H as <- <-. split; [reflexivity |].
    exists 0%nat. cbn. repeat split; discriminate.
Qed.

Lemma updateSettings_traffic_witness :
  let s' := {| this := MAX47x6_new MAX4716 0x60;
               transactions := [Transmit 0x60 [0; 128; 0]; Request 0x60 6];
               transmits := 1; requests := 1; clock_reads := 3 |} in
  this s' = MAX47x6_new MAX4716 0x60
  /\ exists n : nat,
       transactions s'
       = [] ++ Transmit 0x60 (command_frame MAX4716 VREF_VDD GAIN_1X 512 true)
               :: repeat (status_request (MAX47x6_new MAX4716 0x60)) n
       /\ (true = false -> n = 0%nat /\ clock_reads s' = 0%nat)
       /\ (true = true -> (0 + n < clock_reads s')%nat).
Proof.
  apply (updateSettings_traffic particle_abi (steady_env [0; 0; 0; 0; 0; 0] 0 50)
           5 VREF_VDD GAIN_1X 512 true (boot (MAX47x6_new MAX4716 0x60))).
  reflexivity.
Defined.

(** What one call of [updateEepromIfChanged] puts on the bus: first one
    status request, and then either nothing, with result true, or the
    traffic of [updateSettings] for the persisting frame: the write
    always comes after the read.  The driver object is left as it was. *)
Theorem updateEepromIfChanged_traffic (abi : ABI) (env : Environment)
    (fuel : nat) (vref0 gain0 value : Z) (s : System) (r : bool) (s' : System) :
  updateEepromIfChanged abi env fuel vref0 gain0 value s = Some (r, s') ->
  this s' = this s
  /\ exists tail : list Transaction,
       transactions s' = transactions s ++ status_request (this s) :: tail
       /\ ((tail = [] /\ r = true)
           \/ exists n : nat,
                tail = Transmit (addr (this s))
                         (command_frame (model (this s)) vref0 gain0 value true)
                       :: repeat (status_request (this s)) n).
Proof.
  rewrite Sequencer.updateEepromIfChanged_eq. cbv zeta.
  destruct (negb _ || negb _ || negb _).
  - intros H. apply updateSettings_traffic in H.
    destruct H as (Hthis & n & Hlog & _ & _). cbn in Hthis, Hlog.
    split; [exact Hthis |].
    eexists. split; [rewrite Hlog, <- app_assoc; reflexivity |].
    right. exists n. reflexivity.
  - intros H. injection H as <- <-. split; [reflexivity |].
    exists []. split; [reflexivity | left; split; reflexivity].
Qed.

Lemma updateEepromIfChanged_traffic_witness :
  let s' := {| this := MAX47x6_new MAX4706 0x60;
               transactions :=
                 [Request 0x60 4; Transmit 0x60 [0; 0x16; 0]; Request 0x60 4];
               transmits := 1; requests := 2; clock_reads := 2 |} in
  this s' = MAX47x6_new MAX4706 0x60
  /\ exists tail : list Transaction,
       transactions s' = [] ++ status_request (MAX47x6_new MAX4706 0x60) :: tail
       /\ ((tail = [] /\ true = true)
           \/ exists n : nat,
                tail = Transmit 0x60 (command_frame MAX4706 VREF_VDD GAIN_1X 0x16 true)
                       :: repeat (status_request (MAX47x6_new MAX4706 0x60)) n).
Proof.
  apply (updateEepromIfChanged_traffic particle_abi
           (steady_env [1; 0x2A; 3; 0x15] 0 50)
           5 VREF_VDD GAIN_1X 0x16 (boot (MAX47x6_new MAX4706 0x60))).
  reflexivity.
Defined.

(** The stored configuration a status read compares against is one
    decoded byte. *)
Lemma stored_config_is_a_byte (abi : ABI) (env : Environment) (m : Model) (n : nat) :
  exists byte : Z,
    nonVolatileConfig (status_at abi env m n) = config_of_byte abi byte.
Proof.
  destruct m; eexists; reflexivity.
Qed.

(** A signed two-bit field holds -2, -1, 0 or 1. *)
Lemma two_bit_field_signed (abi : ABI) (byte offset : Z) :
  bitfield_signed abi = true -> -2 <= bitfield abi byte offset 2 <= 1.
Proof.
  intros Hs. unfold bitfield. rewrite Hs. cbn [andb].
  set (shift := if bitfield_lsb_first abi then offset else 8 - offset - 2).
  rewrite Z.land_ones by lia.
  change (2 ^ 2) with 4. change (2 ^ (2 - 1)) with 2.
  pose proof (Z.mod_pos_bound (Z.shiftr byte shift) 4 ltac:(lia)).
  destruct (Z.leb_spec 2 (Z.shiftr byte shift mod 4)); lia.
Qed.

(** When the comparison fails, [updateEepromIfChanged] is the status
    request followed by [updateSettings] with the persist flag. *)
Lemma updateEepromIfChanged_differs (abi : ABI) (env : Environment)
    (fuel : nat) (vref0 gain0 value : Z) (s : System) :
  vref (nonVolatileConfig (status_at abi env (model (this s)) (requests s)))
    <> vref0
  \/ gain (nonVolatileConfig (status_at abi env (model (this s)) (requests s)))
       <> gain0
  \/ nonVolatileValue (status_at abi env (model (this s)) (requests s)) <> value ->
  updateEepromIfChanged abi env fuel vref0 gain0 value s
  = updateSettings abi env fuel vref0 gain0 value true
      (after_request s (status_length (model (this s)))).
Proof.
  intros H. rewrite Sequencer.updateEepromIfChanged_eq. cbv zeta.
  destruct H as [H | [H | H]]; apply Z.eqb_neq in H; rewrite H; cbn [negb orb];
    rewrite ?orb_true_r; reflexivity.
Qed.

(** With signed [int] bit-fields the stored gain reads 0 or -1 and the
    stored reference selector -2 to 1, so a request with the gain on
    (any positive gain) or with a reference selector of 2 or more (the
    two VREF-pin selections) never matches: [updateEepromIfChanged]
    always goes on to [updateSettings] and transmits, whatever the
    device holds. *)
Theorem signed_fields_force_write (abi : ABI) (env : Environment)
    (fuel : nat) (vref0 gain0 value : Z) (s : System) :
  bitfield_signed abi = true ->
  0 < gain0 \/ 2 <= vref0 ->
  updateEepromIfChanged abi env fuel vref0 gain0 value s
  = updateSettings abi env fuel vref0 gain0 value true
      (after_request s (status_length (model (this s)))).
Proof.
  intros Hs Hreq. apply updateEepromIfChanged_differs.
  destruct (stored_config_is_a_byte abi env (model (this s)) (requests s))
    as (byte & ->).
  cbn [config_of_byte vref gain].
  destruct Hreq as [Hg | Hv].
  - right; left.
    destruct (Status.one_bit_field abi byte 7) as [E | E]; rewrite E;
      [| rewrite Hs]; lia.
  - left. pose proof (two_bit_field_signed abi byte 3 Hs). lia.
Qed.

Lemma signed_fields_force_write_witness :
  updateEepromIfChanged particle_abi (steady_env [0; 0; 0; 0x99; 0; 0] 0 50)
    5 VREF_VREF_BUFFERED GAIN_2X 0 (boot (MAX47x6_new MAX4726 0x60))
  = updateSettings particle_abi (steady_env [0; 0; 0; 0x99; 0; 0] 0 50)
      5 VREF_VREF_BUFFERED GAIN_2X 0 true
      (after_request (boot (MAX47x6_new MAX4726 0x60))
         (status_length (model (this (boot (MAX47x6_new MAX4726 0x60)))))).
Proof.
  apply (signed_fields_force_write particle_abi
           (steady_env [0; 0; 0; 0x99; 0; 0] 0 50)
           5 VREF_VREF_BUFFERED GAIN_2X 0 (boot (MAX47x6_new MAX4726 0x60))).
  - reflexivity.
  - left. unfold GAIN_2X. lia.
Defined.

(** For the 8-bit model a requested value of 256 or more never matches
    the stored one, which is a single byte: [updateEepromIfChanged]
    always goes on to [updateSettings], on every layout. *)
Theorem narrow_value_out_of_range_forces_write (abi : ABI) (env : Environment)
    (fuel : nat) (vref0 gain0 value : Z) (s : System) :
  model (this s) = MAX4706 ->
  256 <= value ->
  updateEepromIfChanged abi env fuel vref0 gain0 value s
  = updateSettings abi env fuel vref0 gain0 value true
      (after_request s (status_length (model (this s)))).
Proof.
  intros Hm Hv. apply updateEepromIfChanged_differs.
  right; right. rewrite Hm.
  unfold status_at, raw_bytes.
  cbn [status_length seq map decode_status convert status8_of_bytes
       nonVolatileValue nonVolatileValue8 nth].
  pose proof (Readback.u16_u8_range (nth 3 (received env (requests s)) (-1))).
  lia.
Qed.

Lemma narrow_value_out_of_range_forces_write_witness :
  updateEepromIfChanged particle_abi (steady_env [1; 0x2A; 3; 0x15] 0 50)
    5 VREF_VDD GAIN_1X 0x115 (boot (MAX47x6_new MAX4706 0x60))
  = updateSettings particle_abi (steady_env [1; 0x2A; 3; 0x15] 0 50)
      5 VREF_VDD GAIN_1X 0x115 true
      (after_request (boot (MAX47x6_new MAX4706 0x60))
         (status_length (model (this (boot (MAX47x6_new MAX4706 0x60)))))).
Proof.
  apply (narrow_value_out_of_range_forces_write particle_abi
           (steady_env [1; 0x2A; 3; 0x15] 0 50)
           5 VREF_VDD GAIN_1X 0x115 (boot (MAX47x6_new MAX4706 0x60))).
  - reflexivity.
  - lia.
Defined.

End Traffic.
